(** * redis_group_query.py: a shallow embedding and its properties

    The script connects to a Redis server, lists the keys matching a few
    glob patterns, fetches every key according to its storage type and
    prints what it found.  The embedding follows
    [task-manager/redis-tools/redis_group_query.py] function by function.

    - Python values that flow through the script are the inductive
      [pyvalue]; Python dicts are insertion-ordered association lists.
    - The script is effectful: it talks to the server, prints, and may
      raise.  Effects are threaded through the monad [M], whose state
      holds the state of the world behind the connection, the list of
      library calls issued so far and the records printed so far.
    - What belongs to libraries (the redis client, [json], the [repr] of
      builtin values) is a parameter of the development. *)

From Stdlib Require Import String Ascii List ZArith Lia Bool.
From Stdlib Require Import DecimalString.
Import ListNotations.
Local Open Scope list_scope.
Local Open Scope string_scope.

Set Implicit Arguments.

(** ** Strings *)

(** The newline character, written [\n] in the Python source. *)
Definition nl : string := String (ascii_of_nat 10) EmptyString.

(** [str(n)] for a Python integer. *)
Definition str_int (z : Z) : string :=
  NilZero.string_of_int (Z.to_int z).

(** [sep.join(l)]. *)
Fixpoint join (sep : string) (l : list string) : string :=
  match l with
  | [] => EmptyString
  | [x] => x
  | x :: tl => x ++ sep ++ join sep tl
  end.

(** [s * n] for a string [s]. *)
Fixpoint str_repeat (s : string) (n : nat) : string :=
  match n with
  | O => EmptyString
  | S n' => s ++ str_repeat s n'
  end.

(** [value.startswith(p)]. *)
Definition startswith (value p : string) : bool := String.prefix p value.

(** ** Python dicts

    A dict keeps its keys in insertion order; assigning to a key that is
    already present replaces the value and keeps the key's position. *)

Definition pydict (V : Type) : Type := list (string * V).

Fixpoint dict_get {V} (k : string) (d : pydict V) : option V :=
  match d with
  | [] => None
  | (k', v) :: tl => if String.eqb k k' then Some v else dict_get k tl
  end.

(** [k in d]. *)
Definition dict_mem {V} (k : string) (d : pydict V) : bool :=
  match dict_get k d with Some _ => true | None => false end.

(** [d[k] = v]. *)
Fixpoint dict_set {V} (k : string) (v : V) (d : pydict V) : pydict V :=
  match d with
  | [] => [(k, v)]
  | (k', v') :: tl =>
      if String.eqb k k' then (k', v) :: tl else (k', v') :: dict_set k v tl
  end.

Definition dict_keys {V} (d : pydict V) : list string := map fst d.

(** ** Exceptions

    Every exception the script can meet derives from [Exception]; what
    the script looks at is whether it is a [json.JSONDecodeError] and
    what [str(e)] is. *)

Inductive exn_class : Type :=
| KeyError
| JSONDecodeError
| OtherException.

Record exn : Type := mk_exn { exn_cls : exn_class; exn_str : string }.

Definition is_JSONDecodeError (e : exn) : bool :=
  match exn_cls e with JSONDecodeError => true | _ => false end.

(** [KeyError(k)]: its [str] is the [repr] of the key, which for the keys
    used below is the key between single quotes. *)
Definition key_error (k : string) : exn :=
  mk_exn KeyError ("'" ++ k ++ "'").

Inductive result (A : Type) : Type :=
| Val (a : A)
| Exc (e : exn).
Arguments Val {A} a.
Arguments Exc {A} e.

(** ** Library calls, as recorded in the state *)

Inductive call : Type :=
| CPing
| CKeys (pattern : string)
| CType (key : string)
| CGet (key : string)
| CHGetAll (key : string)
| CLRange (key : string)
| CSMembers (key : string)
| CZRange (key : string)
| CJsonLoads (text : string).

(** ** Values *)

Section Values.

(** Python floats (the scores of a sorted set). *)
Variable score : Type.

Inductive pyvalue : Type :=
| VNone
| VStr (s : string)
| VDict (d : pydict string)
| VList (l : list string)
| VSet (l : list string)
| VPairs (l : list (string * score)).

(** The state of the world behind the connection (the server, the
    network, other clients). *)
Variable W : Type.

(** [redis.Redis(..., decode_responses=True)]: every command takes the
    world to a reply (a value or an exception) and a new world. *)
Record Redis : Type := mk_Redis {
  ping : W -> result bool * W;
  keys : string -> W -> result (list string) * W;
  type : string -> W -> result string * W;
  get : string -> W -> result (option string) * W;
  hgetall : string -> W -> result (pydict string) * W;
  lrange_all : string -> W -> result (list string) * W;
  smembers : string -> W -> result (list string) * W;
  zrange_all_withscores : string -> W -> result (list (string * score)) * W
}.

(** The state threaded through the script. *)
Record state : Type := mk_state {
  world : W;
  calls : list call;
  stdout : list string
}.

End Values.

Arguments VNone {score}.
Arguments VStr {score} s.
Arguments VDict {score} d.
Arguments VList {score} l.
Arguments VSet {score} l.

(** ** What the libraries provide *)

Class Libs (W score json : Type) : Type := mk_Libs {
  (** [repr] of a Python [float] and of a Python [str] *)
  repr_float : score -> string;
  repr_str : string -> string;
  (** [json.loads] and [json.dumps(_, indent=2)] *)
  json_loads : string -> result json;
  json_dumps_indent2 : json -> string;
  (** [redis.Redis(host=..., port=..., db=..., password=...)] *)
  redis_Redis : string -> Z -> Z -> option string -> Redis score W
}.

(** ** The monad *)

Section Monad.

Context {W : Type}.

Definition M (A : Type) : Type := state W -> result A * state W.

Definition ret {A} (a : A) : M A := fun st => (Val a, st).

Definition bind {A B} (m : M A) (f : A -> M B) : M B :=
  fun st =>
    match m st with
    | (Val a, st') => f a st'
    | (Exc e, st') => (Exc e, st')
    end.

Definition raise {A} (e : exn) : M A := fun st => (Exc e, st).

(** [try: m  except Exception as e: h e]. *)
Definition try_except {A} (m : M A) (h : exn -> M A) : M A :=
  fun st =>
    match m st with
    | (Val a, st') => (Val a, st')
    | (Exc e, st') => h e st'
    end.

(** [print(s)]: one record of the output per call. *)
Definition print (s : string) : M unit :=
  fun st => (Val tt, mk_state (world st) (calls st) (stdout st ++ [s])).

(** A command of the client: the call is recorded, the world moves. *)
Definition command {A} (c : call) (f : W -> result A * W) : M A :=
  fun st =>
    let (x, w') := f (world st) in
    (x, mk_state w' (calls st ++ [c]) (stdout st)).

(** A library function that does not touch the world. *)
Definition library {A} (c : call) (x : result A) : M A :=
  fun st => (x, mk_state (world st) (calls st ++ [c]) (stdout st)).

End Monad.

Declare Scope monad_scope.
Delimit Scope monad_scope with monad.
Notation "x <- c1 ;; c2" := (bind c1 (fun x => c2))
  (at level 61, c1 at next level, right associativity) : monad_scope.
Notation "c1 ;; c2" := (bind c1 (fun _ => c2))
  (at level 61, right associativity) : monad_scope.
Local Open Scope monad_scope.

Section Loops.

Context {W : Type}.

(** [for x in l: body], where the body may rebind the locals [s]. *)
Fixpoint for_fold {A S} (body : S -> A -> M (W := W) S) (l : list A) (s : S)
  : M S :=
  match l with
  | [] => ret s
  | x :: tl => s' <- body s x ;; for_fold body tl s'
  end.

(** [for x in l: body], without locals. *)
Fixpoint for_each {A} (body : A -> M (W := W) unit) (l : list A) : M unit :=
  match l with
  | [] => ret tt
  | x :: tl => body x ;; for_each body tl
  end.

(** [d[k]]. *)
Definition getitem {V} (k : string) (d : pydict V) : M (W := W) V :=
  match dict_get k d with
  | Some v => ret v
  | None => raise (key_error k)
  end.

End Loops.

(** ** The script *)

Section Script.

Context {W score json : Type} {L : Libs W score json}.

(** An entry of the result mapping: the dict [get_group_info] returns. *)
Definition info : Type := pydict (pyvalue score).

Definition repr_pair (p : string * score) : string :=
  "(" ++ repr_str (fst p) ++ ", " ++ repr_float (snd p) ++ ")".

Definition repr_item (p : string * string) : string :=
  repr_str (fst p) ++ ": " ++ repr_str (snd p).

(** [str(v)], which is what an f-string inserts. *)
Definition py_str (v : pyvalue score) : string :=
  match v with
  | VNone => "None"
  | VStr s => s
  | VDict d => "{" ++ join ", " (map repr_item d) ++ "}"
  | VList l => "[" ++ join ", " (map repr_str l) ++ "]"
  | VSet [] => "set()"
  | VSet l => "{" ++ join ", " (map repr_str l) ++ "}"
  | VPairs l => "[" ++ join ", " (map repr_pair l) ++ "]"
  end.

(** [r.get(key)] is a [str] or [None]. *)
Definition of_optional (o : option string) : pyvalue score :=
  match o with Some s => VStr s | None => VNone end.

(** [connect_to_redis(host, port, db, password)]: the client, or [None]. *)
Definition connect_to_redis (host : string) (port db : Z)
  (password : option string) : M (option (Redis score W)) :=
  try_except
    (let r := redis_Redis host port db password in
     _ <- command CPing (ping r) ;;
     print ("Connected to Redis at " ++ host ++ ":" ++ str_int port) ;;
     ret (Some r))
    (fun e =>
       print ("Error connecting to Redis: " ++ exn_str e) ;;
       ret None).

(** [get_all_keys(r, pattern)]. *)
Definition get_all_keys (r : Redis score W) (pattern : string)
  : M (list string) :=
  try_except
    (keys <- command (CKeys pattern) (keys r pattern) ;;
     ret keys)
    (fun e =>
       print ("Error getting keys: " ++ exn_str e) ;;
       ret []).

(** [get_group_info(r, key)]. *)
Definition get_group_info (r : Redis score W) (key : string) : M info :=
  try_except
    (key_type <- command (CType key) (type r key) ;;
     if String.eqb key_type "string" then
       value <- command (CGet key) (get r key) ;;
       ret [("type", VStr "string"); ("value", of_optional value)]
     else if String.eqb key_type "hash" then
       value <- command (CHGetAll key) (hgetall r key) ;;
       ret [("type", VStr "hash"); ("value", VDict value)]
     else if String.eqb key_type "list" then
       value <- command (CLRange key) (lrange_all r key) ;;
       ret [("type", VStr "list"); ("value", VList value)]
     else if String.eqb key_type "set" then
       value <- command (CSMembers key) (smembers r key) ;;
       ret [("type", VStr "set"); ("value", VSet value)]
     else if String.eqb key_type "zset" then
       value <- command (CZRange key) (zrange_all_withscores r key) ;;
       ret [("type", VStr "zset"); ("value", VPairs value)]
     else
       ret [("type", VStr key_type); ("value", VStr "Unknown type")])
    (fun e => ret [("error", VStr (exn_str e))]).

(** The body of the inner loop of [query_groups]. *)
Definition fetch_key (r : Redis score W) (all_groups : pydict info)
  (key : string) : M (pydict info) :=
  group_info <- get_group_info r key ;;
  ret (dict_set key group_info all_groups).

(** The body of the outer loop of [query_groups]; the first branch is the
    [continue]. *)
Definition scan_pattern (r : Redis score W) (all_groups : pydict info)
  (pattern : string) : M (pydict info) :=
  print (nl ++ "Searching for keys matching pattern: " ++ pattern) ;;
  keys <- get_all_keys r pattern ;;
  match keys with
  | [] =>
      print ("No keys found for pattern: " ++ pattern) ;;
      ret all_groups
  | _ :: _ =>
      print ("Found " ++ str_int (Z.of_nat (length keys))
               ++ " keys for pattern: " ++ pattern) ;;
      for_fold (fetch_key r) keys all_groups
  end.

(** [query_groups(r, patterns)]. *)
Definition query_groups (r : Redis score W) (patterns : list string)
  : M (pydict info) :=
  for_fold (scan_pattern r) patterns [].

(** The rendering of a value, lines 105 to 125 of the source. *)
Definition display_value (value : pyvalue score) : M (W := W) unit :=
  match value with
  | VDict d =>
      print "Value:" ;;
      for_each (fun kv => print ("  " ++ fst kv ++ ": " ++ snd kv)) d
  | VList l | VSet l =>
      print "Value:" ;;
      for_each (fun item => print ("  - " ++ item)) l
  | VPairs l =>
      print "Value:" ;;
      for_each (fun item => print ("  - " ++ repr_pair item)) l
  | VStr s =>
      if startswith s "{" || startswith s "[" then
        try_except
          (parsed_value <- library (CJsonLoads s) (json_loads s) ;;
           print "Value (JSON):" ;;
           print (json_dumps_indent2 parsed_value))
          (fun e =>
             if is_JSONDecodeError e then print ("  Value: " ++ s)
             else raise e)
      else print ("  Value: " ++ s)
  | VNone => print ("  Value: " ++ py_str value)
  end.

(** The body of the loop of [display_group_info]. *)
Definition display_entry (entry : string * info) : M (W := W) unit :=
  let (key, info) := entry in
  print (nl ++ "Key: " ++ key) ;;
  ty <- getitem "type" info ;;
  print ("Type: " ++ py_str ty) ;;
  (if dict_mem "error" info then
     e <- getitem "error" info ;;
     print ("Error: " ++ py_str e)
   else
     value <- getitem "value" info ;;
     display_value value) ;;
  print (str_repeat "-" 40).

(** [display_group_info(groups)]. *)
Definition display_group_info (groups : pydict info) : M (W := W) unit :=
  match groups with
  | [] => print (nl ++ "No group information found in Redis.")
  | _ :: _ =>
      print (nl ++ "--- Found " ++ str_int (Z.of_nat (length groups))
               ++ " group-related entries ---") ;;
      for_each display_entry groups
  end.

(** The namespace [parser.parse_args()] returns. *)
Record Namespace : Type := mk_Namespace {
  host : string;
  port : Z;
  db : Z;
  password : option string;
  patterns : option (list string)
}.

(** What argparse's [append] action leaves in [args.patterns] when the
    values of the [--pattern] flags are [given], in command-line order:
    [None] without any flag, else the list of the values. *)
Definition argparse_append (given : list string) : option (list string) :=
  match given with
  | [] => None
  | _ :: _ => Some given
  end.

Definition default_patterns : list string :=
  ["group:*"; "groups:*"; "*:group*"; "*:groups*"].

(** Lines 147 to 150 of [main]; an empty list is falsy as [None] is. *)
Definition select_patterns (args : Namespace) : list string :=
  match patterns args with
  | Some (p :: ps) => p :: ps
  | Some [] | None => default_patterns
  end.

(** [main()], after [parse_args]. *)
Definition main (args : Namespace) : M (W := W) unit :=
  r <- connect_to_redis (host args) (port args) (db args) (password args) ;;
  match r with
  | None => ret tt
  | Some r =>
      let patterns := select_patterns args in
      groups <- query_groups r patterns ;;
      display_group_info groups
  end.

End Script.

(** ** The journal of a scan

    A specification device: the scan of [query_groups] with the result
    mapping replaced by a journal.  The journal has one entry per pattern,
    in scan order: the pattern, the keys its listing returned, and every
    key fetched under it with the entry [get_group_info] returned for it.
    The effects are those of [query_groups], command for command. *)

Section Journal.

Context {W score json : Type} {L : Libs W score json}.

Definition journal_entry : Type :=
  (string * list string * list (string * info (score := score)))%type.

Definition journal_key (r : Redis score W)
  (fetched : list (string * info (score := score))) (key : string)
  : M (list (string * info (score := score))) :=
  group_info <- get_group_info r key ;;
  ret (fetched ++ [(key, group_info)])%list.

Definition journal_pattern (r : Redis score W) (j : list journal_entry)
  (pattern : string) : M (list journal_entry) :=
  print (nl ++ "Searching for keys matching pattern: " ++ pattern) ;;
  keys <- get_all_keys r pattern ;;
  match keys with
  | [] =>
      print ("No keys found for pattern: " ++ pattern) ;;
      ret (j ++ [(pattern, keys, [])])%list
  | _ :: _ =>
      print ("Found " ++ str_int (Z.of_nat (length keys))
               ++ " keys for pattern: " ++ pattern) ;;
      fetched <- for_fold (journal_key r) keys [] ;;
      ret (j ++ [(pattern, keys, fetched)])%list
  end.

Definition journal (r : Redis score W) (patterns : list string)
  : M (list journal_entry) :=
  for_fold (journal_pattern r) patterns [].

(** Every fetch of a journal, in order. *)
Definition fetches (j : list journal_entry)
  : list (string * info (score := score)) :=
  concat (map snd j).


End Journal.

(** The mapping [d] after the assignments [d[key] = entry] of a log, in
    order. *)
Definition store {V} (log : list (string * V)) (d : pydict V) : pydict V :=
  fold_left (fun d f => dict_set (fst f) (snd f) d) log d.

(** The keys of the [TYPE] commands among [cs], in order: one per call of
    [get_group_info]. *)
Definition type_calls (cs : list call) : list string :=
  flat_map (fun c => match c with CType key => [key] | _ => [] end) cs.

(** The patterns of the [KEYS] commands among [cs], in order. *)
Definition keys_calls (cs : list call) : list string :=
  flat_map (fun c => match c with CKeys p => [p] | _ => [] end) cs.

(** A computation that sends no [KEYS] command and leaves the world as
    it is. *)
Definition offline {W A} (m : M (W := W) A) : Prop :=
  forall st,
    world (snd (m st)) = world st
    /\ keys_calls (calls (snd (m st))) = keys_calls (calls st).

(** ** A concrete server

    A small fixed data set, used to run the script. *)

Module Demo.

(** The two documents the demo parser knows. *)
Inductive doc : Type := EmptyObject | EmptyArray.

Definition loads (s : string) : result doc :=
  if String.eqb s "{}" then Val EmptyObject
  else if String.eqb s "[]" then Val EmptyArray
  else Exc (mk_exn JSONDecodeError "Expecting value").

Definition dumps (d : doc) : string :=
  match d with EmptyObject => "{}" | EmptyArray => "[]" end.

(** The world counts the commands the server has answered. *)
Definition reply {A} (x : A) : nat -> result A * nat :=
  fun w => (Val x, S w).

Definition failure {A} (msg : string) : nat -> result A * nat :=
  fun w => (Exc (mk_exn OtherException msg), S w).

(** - [group:1] cannot be read, [group:2] is a string, [group:3] a hash
      with fields a and b, [group:4] a stream, [group:5] a string that
      holds a JSON document, [group:6] one that only looks like it;
      [group:7] is a string that cannot be read before the server has
      answered three commands;
    - the listing of [groups:*] fails, [*:group*] and [*:groups*] match
      nothing, [g*] matches the first six keys, [group:7] and [*:7] both
      match [group:7]. *)
Definition server (up : bool) : Redis Z nat := {|
  ping := if up then reply true else failure "Connection refused";
  keys := fun p =>
    if String.eqb p "group:*" then reply ["group:1"; "group:2"]
    else if String.eqb p "groups:*" then failure "Timeout reading"
    else if String.eqb p "g*" then
      reply ["group:1"; "group:2"; "group:3"; "group:4"; "group:5";
             "group:6"]
    else if String.eqb p "group:[2-3]" then reply ["group:2"; "group:3"]
    else if String.eqb p "group:7" then reply ["group:7"]
    else if String.eqb p "*:7" then reply ["group:7"]
    else reply [];
  type := fun k w =>
    if String.eqb k "group:1" then failure "boom" w
    else if String.eqb k "group:7" then
      (if Nat.ltb w 3 then failure "busy" w else reply "string" w)
    else if String.eqb k "group:3" then reply "hash" w
    else if String.eqb k "group:4" then reply "stream" w
    else reply "string" w;
  get := fun k =>
    if String.eqb k "group:5" then reply (Some "[]")
    else if String.eqb k "group:6" then reply (Some "{oops")
    else reply (Some "x");
  hgetall := fun _ => reply [("a", "1"); ("b", "2")];
  lrange_all := fun _ => reply [];
  smembers := fun _ => reply [];
  zrange_all_withscores := fun _ => reply []
|}.

(** [repr] is only right here for scores that are integers and strings
    without quotes or escapes, which is all the demo holds. *)
Definition libs : Libs nat Z doc := {|
  repr_float := fun z => str_int z ++ ".0";
  repr_str := fun s => "'" ++ s ++ "'";
  json_loads := loads;
  json_dumps_indent2 := dumps;
  redis_Redis := fun host _ _ _ => server (String.eqb host "localhost")
|}.

Definition st0 : state nat := mk_state 0 [] [].

Definition args (host : string) (given : list string) : Namespace :=
  mk_Namespace host 6379 0 None (argparse_append given).

End Demo.

(** ** The forms of an entry

    Specification devices for what [get_group_info] can return. *)

Section Entries.

Context {score : Type}.

(** The payloads that go with a type tag: a [str] or [None] for
    "string", a dict for "hash", a list for "list", a set for "set", a
    list of pairs for "zset", and the text "Unknown type" for any other
    tag. *)
Definition payload_fits (t : string) (v : pyvalue score) : bool :=
  if String.eqb t "string" then
    match v with VStr _ | VNone => true | _ => false end
  else if String.eqb t "hash" then
    match v with VDict _ => true | _ => false end
  else if String.eqb t "list" then
    match v with VList _ => true | _ => false end
  else if String.eqb t "set" then
    match v with VSet _ => true | _ => false end
  else if String.eqb t "zset" then
    match v with VPairs _ => true | _ => false end
  else
    match v with VStr s => String.eqb s "Unknown type" | _ => false end.


(** A typed entry whose payload goes with its tag. *)
Definition fitting_entry (i : pydict (pyvalue score)) : Prop :=
  exists t v,
    i = [("type", VStr t); ("value", v)] /\ payload_fits t v = true.

(** An entry that records a failure. *)
Definition error_entry (i : pydict (pyvalue score)) : Prop :=
  exists msg, i = [("error", VStr msg)].

End Entries.

(** The keys of [l] in the order in which they are first met, after the
    keys [seen]. *)
Fixpoint first_seen (seen l : list string) : list string :=
  match l with
  | [] => seen
  | k :: tl =>
      first_seen
        (if existsb (String.eqb k) seen then seen else (seen ++ [k])%list) tl
  end.

(** A computation that leaves the world as it is and whose only library
    calls are calls of [json.loads]. *)
Definition json_only {W A} (m : M (W := W) A) : Prop :=
  forall st,
    world (snd (m st)) = world st
    /\ exists texts,
         calls (snd (m st)) = (calls st ++ map CJsonLoads texts)%list.


(** ** A second server

    Keys of the other types, a string that is gone by the time it is
    read, and a parser with a recursion limit. *)

Module Edge.

(** [gone] is a string that has expired between [TYPE] and [GET]; [l] is
    a list, [s] a set, [z] a sorted set, [deep] a string holding nested
    brackets. *)
Definition server : Redis Z nat := {|
  ping := Demo.reply true;
  keys := fun _ => Demo.reply ["gone"; "l"; "s"; "z"; "deep"];
  type := fun k =>
    if String.eqb k "l" then Demo.reply "list"
    else if String.eqb k "s" then Demo.reply "set"
    else if String.eqb k "z" then Demo.reply "zset"
    else Demo.reply "string";
  get := fun k =>
    if String.eqb k "deep" then Demo.reply (Some "[[[[")
    else Demo.reply None;
  hgetall := fun _ => Demo.reply [];
  lrange_all := fun _ => Demo.reply ["a"; "b"];
  smembers := fun _ => Demo.reply ["x"];
  zrange_all_withscores := fun _ => Demo.reply [("m", 1%Z)]
|}.

(** On the text [[[[[] this parser stands for Python's on a document
    nested deeper than its recursion limit: it raises [RecursionError],
    which is not a [JSONDecodeError]. *)
Definition loads (s : string) : result Demo.doc :=
  if String.eqb s "[[[["
  then Exc (mk_exn OtherException "maximum recursion depth exceeded")
  else Demo.loads s.

Definition libs : Libs nat Z Demo.doc := {|
  repr_float := fun z => str_int z ++ ".0";
  repr_str := fun s => "'" ++ s ++ "'";
  json_loads := loads;
  json_dumps_indent2 := Demo.dumps;
  redis_Redis := fun _ _ _ _ => server
|}.


End Edge.

(** * Properties *)

(** ** Dicts *)

Section DictFacts.

Variable V : Type.
Implicit Types (d : pydict V) (k : string) (v : V).





Lemma dict_mem_keys k d : dict_mem k d = true <-> In k (dict_keys d).
Proof.
  unfold dict_mem, dict_keys.
  induction d as [|[k0 v0] d IH]; simpl.
  - intuition congruence.
  - destruct (String.eqb k k0) eqn:E.
    + apply String.eqb_eq in E. intuition.
    + apply String.eqb_neq in E. rewrite IH. intuition congruence.
Qed.


Lemma store_app (log1 log2 : list (string * V)) d :
  store (log1 ++ log2) d = store log2 (store log1 d).
Proof. unfold store. now rewrite fold_left_app. Qed.

End DictFacts.

(** ** Running the monad *)

Section Running.

Context {W : Type}.
Implicit Types (st : state W).

Lemma run_bind_ret {A B} (a : A) (f : A -> M B) st :
  bind (ret a) f st = f a st.
Proof. reflexivity. Qed.

Lemma run_bind_raise {A B} (e : exn) (f : A -> M B) st :
  bind (raise e) f st = (Exc e, st).
Proof. reflexivity. Qed.

Lemma run_bind_bind {A B C} (m : M A) (f : A -> M B) (g : B -> M C) st :
  bind (bind m f) g st = bind m (fun a => bind (f a) g) st.
Proof. unfold bind. now destruct (m st) as [[a|e] st']. Qed.

Lemma run_print (s : string) st :
  print s st = (Val tt, mk_state (world st) (calls st) (stdout st ++ [s])).
Proof. reflexivity. Qed.

Lemma run_bind_print {B} (s : string) (f : unit -> M B) st :
  bind (print s) f st =
  f tt (mk_state (world st) (calls st) (stdout st ++ [s])).
Proof. reflexivity. Qed.

Lemma run_bind_library {A B} c (x : result A) (f : A -> M B) st :
  bind (library c x) f st =
  match x with
  | Val a => f a (mk_state (world st) (calls st ++ [c]) (stdout st))
  | Exc e => (Exc e, mk_state (world st) (calls st ++ [c]) (stdout st))
  end.
Proof. unfold bind, library. now destruct x. Qed.

(** A loop that only prints adds one record per element. *)
Lemma for_each_print {A} (f : A -> string) (l : list A) st :
  for_each (fun x => print (f x)) l st =
  (Val tt, mk_state (world st) (calls st) (stdout st ++ map f l)).
Proof.
  revert st. induction l as [|x l IH]; intros st; simpl.
  - unfold ret. rewrite app_nil_r. now destruct st.
  - rewrite run_bind_print, IH. simpl. now rewrite <- app_assoc.
Qed.

Lemma run_bind_for_each_print {A B} (f : A -> string) (l : list A)
  (g : unit -> M B) st :
  bind (for_each (fun x => print (f x)) l) g st =
  g tt (mk_state (world st) (calls st) (stdout st ++ map f l)).
Proof. unfold bind. now rewrite for_each_print. Qed.

End Running.

Create Rewrite HintDb run.
#[export] Hint Rewrite @run_bind_bind @run_bind_ret @run_bind_raise
  @run_bind_print @run_bind_for_each_print @run_print : run.

(** Reduce the lookups in an entry written out as a literal. *)
Ltac lookups :=
  unfold display_entry, getitem, dict_mem;
  cbn [dict_get String.eqb Ascii.eqb Bool.eqb].

Ltac steps :=
  repeat (progress (autorewrite with run; cbn [py_str display_value])).

Ltac tidy :=
  cbn [world calls stdout]; rewrite <- ?app_assoc; cbn [app]; try reflexivity.

(** ** The loops and the state *)

Section Facts.

Context {W score json : Type} {L : Libs W score json}.
Implicit Types (st : state W) (r : Redis score W).

(** Case analysis on every reply a computation waits for. *)
Ltac step_replies :=
  repeat match goal with
    | |- context [match ?f ?w with pair _ _ => _ end] =>
        match type of w with W => destruct (f w) as [[?v|?e] ?w] end
    | |- context [if String.eqb ?a ?b then _ else _] =>
        destruct (String.eqb a b) eqn:?
    end; simpl.

Ltac run :=
  unfold get_group_info, get_all_keys, connect_to_redis, fetch_key,
    journal_key, try_except, bind, command, library, print, ret, raise;
  simpl.

(** [get_all_keys] never raises and issues exactly one [KEYS] command,
    for its pattern. *)
Lemma get_all_keys_total r pattern st :
  exists keys st',
    get_all_keys r pattern st = (Val keys, st')
    /\ type_calls (calls st') = type_calls (calls st)
    /\ keys_calls (calls st') = (keys_calls (calls st) ++ [pattern])%list.
Proof.
  unfold type_calls, keys_calls. run.
  destruct (keys r pattern (world st)) as [[ks|e] w]; simpl;
    eexists; eexists; (split; [reflexivity|]); simpl;
    rewrite ?flat_map_app; simpl; rewrite ?app_nil_r; auto.
Qed.

(** [get_group_info] never raises, prints nothing, and issues exactly
    one [TYPE] command, for its key. *)
Lemma get_group_info_total r key st :
  exists (i : info) st',
    get_group_info r key st = (Val i, st')
    /\ stdout st' = stdout st
    /\ type_calls (calls st') = (type_calls (calls st) ++ [key])%list
    /\ keys_calls (calls st') = keys_calls (calls st).
Proof.
  unfold type_calls, keys_calls. run.
  destruct (type r key (world st)) as [[t|e] w]; simpl.
  - repeat match goal with
      | |- context [if String.eqb ?a ?b then _ else _] =>
          destruct (String.eqb a b)
      end; simpl;
    try match goal with
      | |- context [match ?f key w with pair _ _ => _ end] =>
          destruct (f key w) as [[v|e] w']
      end; simpl;
    eexists; eexists; (split; [reflexivity|]); simpl;
    rewrite ?flat_map_app; simpl; rewrite ?app_nil_r; auto.
  - eexists; eexists; (split; [reflexivity|]); simpl;
    rewrite ?flat_map_app; simpl; rewrite ?app_nil_r; auto.
Qed.

End Facts.

(** ** The scan *)

Section Scan.

Context {W score json : Type} {L : Libs W score json}.
Implicit Types (st : state W) (r : Redis score W).

(** C6.  When the listing of a pattern returns no key, the scan prints
    that no keys were found for that pattern, leaves the result mapping
    as it was, and goes on with the patterns that remain. *)
Theorem scan_pattern_without_keys r pattern rest
  (all_groups : pydict info) st w' :
  keys r pattern (world st) = (Val [], w') ->
  for_fold (scan_pattern r) (pattern :: rest) all_groups st =
  for_fold (scan_pattern r) rest all_groups
    (mk_state w' (calls st ++ [CKeys pattern])
       (stdout st ++
          [nl ++ "Searching for keys matching pattern: " ++ pattern;
           "No keys found for pattern: " ++ pattern])).
Proof.
  intros Hkeys. simpl.
  unfold scan_pattern, get_all_keys, try_except, bind, command, print, ret.
  simpl. rewrite Hkeys. simpl.
  now rewrite <- app_assoc.
Qed.

(** C8.  When the listing of a pattern raises, the exception is caught,
    its message is printed, and the pattern is then handled as one without
    keys: the "no keys" message, the same mapping, the next pattern. *)
Theorem scan_pattern_listing_raises r pattern rest
  (all_groups : pydict info) st e w' :
  keys r pattern (world st) = (Exc e, w') ->
  for_fold (scan_pattern r) (pattern :: rest) all_groups st =
  for_fold (scan_pattern r) rest all_groups
    (mk_state w' (calls st ++ [CKeys pattern])
       (stdout st ++
          [nl ++ "Searching for keys matching pattern: " ++ pattern;
           "Error getting keys: " ++ exn_str e;
           "No keys found for pattern: " ++ pattern])).
Proof.
  intros Hkeys. simpl.
  unfold scan_pattern, get_all_keys, try_except, bind, command, print, ret.
  simpl. rewrite Hkeys. simpl.
  now rewrite <- !app_assoc.
Qed.

(** C4.  When the ping raises, [main] prints the connection error and
    returns: the ping is the only command ever sent, and it is sent
    once. *)
Theorem main_connection_failure (args : Namespace) st e w' :
  ping (redis_Redis (host args) (port args) (db args) (password args))
    (world st) = (Exc e, w') ->
  main args st =
  (Val tt,
   mk_state w' (calls st ++ [CPing])
     (stdout st ++ ["Error connecting to Redis: " ++ exn_str e])).
Proof.
  intros Hping.
  unfold main, connect_to_redis, try_except, bind, command, print, ret.
  simpl. now rewrite Hping.
Qed.

End Scan.

Lemma scan_pattern_without_keys_witness :
  keys (Demo.server true) "*:group*" 0 = (Val [], 1)
  /\ for_fold (scan_pattern (Demo.server true)) ["*:group*"; "g*"] []
       Demo.st0 =
     for_fold (scan_pattern (Demo.server true)) ["g*"] []
       (mk_state 1 [CKeys "*:group*"]
          [nl ++ "Searching for keys matching pattern: *:group*";
           "No keys found for pattern: *:group*"]).
Proof.
  split; [reflexivity |].
  exact (scan_pattern_without_keys (Demo.server true) "*:group*" ["g*"] []
           Demo.st0 (w' := 1) eq_refl).
Defined.

Lemma scan_pattern_listing_raises_witness :
  keys (Demo.server true) "groups:*" 0
  = (Exc (mk_exn OtherException "Timeout reading"), 1)
  /\ for_fold (scan_pattern (Demo.server true)) ["groups:*"; "g*"] []
       Demo.st0 =
     for_fold (scan_pattern (Demo.server true)) ["g*"] []
       (mk_state 1 [CKeys "groups:*"]
          [nl ++ "Searching for keys matching pattern: groups:*";
           "Error getting keys: Timeout reading";
           "No keys found for pattern: groups:*"]).
Proof.
  split; [reflexivity |].
  exact (scan_pattern_listing_raises (Demo.server true) "groups:*" ["g*"] []
           Demo.st0 (w' := 1) eq_refl).
Defined.

Lemma main_connection_failure_witness :
  ping (redis_Redis (Libs := Demo.libs) "10.0.0.9" 6379 0 None) 0
  = (Exc (mk_exn OtherException "Connection refused"), 1)
  /\ main (L := Demo.libs) (Demo.args "10.0.0.9" []) Demo.st0 =
     (Val tt,
      mk_state 1 [CPing] ["Error connecting to Redis: Connection refused"]).
Proof.
  split; [reflexivity |].
  exact (main_connection_failure (L := Demo.libs) (Demo.args "10.0.0.9" [])
           Demo.st0 (w' := 1) eq_refl).
Defined.

(** ** The display pass *)

Section Display.

Context {W score json : Type} {L : Libs W score json}.
Implicit Types (st : state W).

Lemma startswith_first_char (s : string) (c : ascii) :
  startswith s (String c EmptyString) = true <-> exists tl, s = String c tl.
Proof.
  unfold startswith. destruct s as [|a s]; simpl.
  - split; [discriminate | intros [tl H]; discriminate].
  - destruct (ascii_dec c a) as [->|Hne].
    + split; [eauto | intros _; now destruct s].
    + split; [discriminate | intros [tl H]; congruence].
Qed.

(** C10.  On an empty result mapping the display pass prints the one
    record saying that no group information was found and returns: no
    header, no entry.  So a run that connects and whose scan returns the
    empty mapping ends normally with that record as its last output. *)
Theorem display_nothing_found (args : Namespace) st r st1 st2 :
  connect_to_redis (host args) (port args) (db args) (password args) st
  = (Val (Some r), st1) ->
  query_groups r (select_patterns args) st1 = (Val [], st2) ->
  display_group_info (L := L) [] st2 =
  (Val tt,
   mk_state (world st2) (calls st2)
     (stdout st2 ++ [nl ++ "No group information found in Redis."]))
  /\ main args st = display_group_info (L := L) [] st2.
Proof.
  intros Hconnect Hscan. split.
  - unfold display_group_info. apply run_print.
  - unfold main, bind. now rewrite Hconnect, Hscan.
Qed.

(** C7.  For an entry tagged hash the renderer prints, between the
    heading of the entry and the closing rule, the record "Value:" and
    then one record per field of the hash, in the form "  field: value"
    (a record is what one [print] emits). *)
Theorem display_hash_entry key (fields : pydict string) st :
  display_entry (L := L)
    (key, [("type", VStr "hash"); ("value", VDict fields)]) st =
  (Val tt,
   mk_state (world st) (calls st)
     (stdout st
        ++ [nl ++ "Key: " ++ key; "Type: hash"; "Value:"]
        ++ map (fun kv => "  " ++ fst kv ++ ": " ++ snd kv) fields
        ++ [str_repeat "-" 40])).
Proof.
  lookups. steps. tidy.
Qed.


End Display.

(** ** The result mapping and the journal *)

Section Mapping.

Context {W score json : Type} {L : Libs W score json}.
Implicit Types (st : state W) (r : Redis score W).
Implicit Types (log : list (string * info (score := score))).


(** The inner loop of [query_groups] and its journal run in step. *)
Lemma fetch_loop r (keys : list string) :
  forall (all_groups : pydict info) log st,
  exists fetched st',
    for_fold (journal_key r) keys log st = (Val (log ++ fetched)%list, st')
    /\ for_fold (fetch_key r) keys all_groups st
       = (Val (store fetched all_groups), st')
    /\ map fst fetched = keys
    /\ type_calls (calls st') = (type_calls (calls st) ++ keys)%list
    /\ keys_calls (calls st') = keys_calls (calls st).
Proof.
  induction keys as [|key keys IH]; intros all_groups log st.
  - exists [], st. simpl. unfold ret. now rewrite !app_nil_r.
  - destruct (get_group_info_total r key st) as (i & st1 & Hi & _ & Ht & Hk).
    destruct (IH (dict_set key i all_groups) (log ++ [(key, i)])%list st1)
      as (fetched & st' & Hj & Hf & Hmap & Ht' & Hk').
    exists ((key, i) :: fetched), st'. simpl.
    unfold journal_key at 1, fetch_key at 1.
    rewrite !run_bind_bind. unfold bind at 1 3. rewrite Hi.
    rewrite !run_bind_ret, Hj, Hf, <- app_assoc. simpl.
    repeat split; try congruence.
    rewrite Ht', Ht, <- app_assoc. reflexivity.
Qed.

(** The scan of [query_groups] and its journal run in step: the scan
    never raises, and what it returns is the mapping it started from after
    the assignments of the journal. *)
Lemma scan_loop r (patterns : list string) :
  forall (all_groups : pydict info) (j0 : list journal_entry) st,
  exists j st',
    for_fold (journal_pattern r) patterns j0 st = (Val (j0 ++ j)%list, st')
    /\ for_fold (scan_pattern r) patterns all_groups st
       = (Val (store (fetches j) all_groups), st')
    /\ map (fun e => fst (fst e)) j = patterns
    /\ Forall (fun e => map fst (snd e) = snd (fst e)) j
    /\ type_calls (calls st')
       = (type_calls (calls st) ++ map fst (fetches j))%list
    /\ keys_calls (calls st') = (keys_calls (calls st) ++ patterns)%list.
Proof.
  induction patterns as [|pattern patterns IH]; intros all_groups j0 st.
  - exists [], st. simpl. unfold ret. rewrite !app_nil_r.
    repeat split; auto.
  - pose (st1 := mk_state (world st) (calls st)
        (stdout st ++ [nl ++ "Searching for keys matching pattern: "
                          ++ pattern])).
    destruct (get_all_keys_total r pattern st1)
      as (ks & st2 & Hks & Ht2 & Hk2).
    assert (Hstep : exists fetched st3,
      journal_pattern r j0 pattern st
        = (Val (j0 ++ [(pattern, ks, fetched)])%list, st3)
      /\ scan_pattern r all_groups pattern st
         = (Val (store fetched all_groups), st3)
      /\ map fst fetched = ks
      /\ type_calls (calls st3)
         = (type_calls (calls st) ++ map fst fetched)%list
      /\ keys_calls (calls st3) = (keys_calls (calls st) ++ [pattern])%list).
    { destruct ks as [|k ks].
      - exists [], (mk_state (world st2) (calls st2)
            (stdout st2 ++ ["No keys found for pattern: " ++ pattern])).
        split; [| split].
        + unfold journal_pattern. rewrite run_bind_print. fold st1.
          unfold bind at 1. rewrite Hks. now rewrite run_bind_print.
        + unfold scan_pattern. rewrite run_bind_print. fold st1.
          unfold bind at 1. rewrite Hks. now rewrite run_bind_print.
        + cbn [calls map]. rewrite app_nil_r. auto.
      - pose (st2' := mk_state (world st2) (calls st2)
            (stdout st2 ++
               ["Found " ++ str_int (Z.of_nat (length (k :: ks)))
                  ++ " keys for pattern: " ++ pattern])).
        destruct (fetch_loop r (k :: ks) all_groups [] st2')
          as (fetched & st3 & Hj & Hf & Hmap & Ht3 & Hk3).
        exists fetched, st3.
        split; [| split].
        + unfold journal_pattern. rewrite run_bind_print. fold st1.
          unfold bind at 1. rewrite Hks. rewrite run_bind_print. fold st2'.
          unfold bind at 1. now rewrite Hj.
        + unfold scan_pattern. rewrite run_bind_print. fold st1.
          unfold bind at 1. rewrite Hks. rewrite run_bind_print. fold st2'.
          exact Hf.
        + rewrite Ht3, Hk3, Hmap. cbn [calls st2']. rewrite Ht2. auto. }
    destruct Hstep as (fetched & st3 & Hj & Hs & Hmap & Ht3 & Hk3).
    destruct (IH (store fetched all_groups)
                (j0 ++ [(pattern, ks, fetched)])%list st3)
      as (j & st' & Hj' & Hs' & Hpats & Hall & Ht' & Hk').
    exists ((pattern, ks, fetched) :: j), st'.
    cbn [for_fold]. unfold bind. rewrite Hj, Hs, Hj', Hs'.
    rewrite <- app_assoc. unfold fetches. cbn [map concat fst snd app].
    rewrite store_app, map_app.
    repeat split; auto.
    + simpl. congruence.
    + rewrite Ht', Ht3, <- app_assoc. reflexivity.
    + rewrite Hk', Hk3, <- app_assoc. reflexivity.
Qed.


End Mapping.

(** A key listed under two patterns, whose first fetch fails and whose
    second one succeeds: the mapping holds the entry of the second. *)
Example last_fetch_of_a_key_listed_twice :
  fst (query_groups (Demo.server true) ["group:7"; "*:7"] Demo.st0)
  = Val [("group:7", [("type", VStr "string"); ("value", VStr "x")])]
  /\ fst (journal (Demo.server true) ["group:7"; "*:7"] Demo.st0)
     = Val [("group:7", ["group:7"],
             [("group:7", [("error", VStr "busy")])]);
            ("*:7", ["group:7"],
             [("group:7", [("type", VStr "string"); ("value", VStr "x")])])]
  /\ type_calls
       (calls (snd (query_groups (Demo.server true) ["group:7"; "*:7"]
                      Demo.st0)))
     = ["group:7"; "group:7"].
Proof. repeat split; vm_compute; reflexivity. Qed.

(** ** The patterns of a run *)

Section Offline.

Context {W : Type}.

Lemma offline_ret {A} (a : A) : offline (W := W) (ret a).
Proof. intros st. now split. Qed.

Lemma offline_raise {A} e : offline (W := W) (raise (A := A) e).
Proof. intros st. now split. Qed.

Lemma offline_print s : offline (W := W) (print s).
Proof. intros st. now split. Qed.

Lemma offline_json_loads {A} text (x : result A) :
  offline (W := W) (library (CJsonLoads text) x).
Proof.
  intros st. unfold library, keys_calls. simpl.
  rewrite flat_map_app. simpl. now rewrite app_nil_r.
Qed.

Lemma offline_bind {A B} (m : M (W := W) A) (f : A -> M B) :
  offline m -> (forall a, offline (f a)) -> offline (bind m f).
Proof.
  intros Hm Hf st. unfold bind.
  destruct (Hm st) as [Hw Hk].
  destruct (m st) as [[a|e] st1]; simpl in *.
  - destruct (Hf a st1) as [Hw' Hk']. split; congruence.
  - now split.
Qed.

Lemma offline_try_except {A} (m : M (W := W) A) (h : exn -> M A) :
  offline m -> (forall e, offline (h e)) -> offline (try_except m h).
Proof.
  intros Hm Hh st. unfold try_except.
  destruct (Hm st) as [Hw Hk].
  destruct (m st) as [[a|e] st1]; simpl in *.
  - now split.
  - destruct (Hh e st1) as [Hw' Hk']. split; congruence.
Qed.

Lemma offline_for_each {A} (body : A -> M (W := W) unit) (l : list A) :
  (forall x, offline (body x)) -> offline (for_each body l).
Proof.
  intros Hbody. induction l as [|x l IH]; simpl.
  - apply offline_ret.
  - apply offline_bind; auto.
Qed.

Lemma offline_getitem {V} k (d : pydict V) : offline (W := W) (getitem k d).
Proof.
  unfold getitem. destruct (dict_get k d).
  - apply offline_ret.
  - apply offline_raise.
Qed.

End Offline.

Create HintDb offline.
#[export] Hint Resolve offline_ret offline_raise offline_print
  offline_json_loads offline_getitem : offline.

Section Patterns.

Context {W score json : Type} {L : Libs W score json}.
Implicit Types (st : state W).

Ltac offline_steps :=
  repeat first
    [ apply offline_bind; [| intros ?]
    | apply offline_try_except; [| intros ?]
    | apply offline_for_each; intros ?
    | solve [auto with offline] ].

Lemma display_value_offline (value : pyvalue score) :
  offline (W := W) (display_value value).
Proof.
  destruct value as [|s|d|l|l|l]; cbn [display_value]; offline_steps.
  destruct (startswith s "{" || startswith s "["); offline_steps.
  match goal with
  | |- context [is_JSONDecodeError ?e] => destruct (is_JSONDecodeError e)
  end; auto with offline.
Qed.

Lemma display_group_info_offline (groups : pydict info) :
  offline (W := W) (display_group_info groups).
Proof.
  destruct groups as [|g groups]; [apply offline_print |].
  unfold display_group_info.
  apply offline_bind; [apply offline_print | intros _].
  apply offline_for_each. intros [key i].
  unfold display_entry. offline_steps.
  destruct (dict_mem "error" i); offline_steps.
  apply display_value_offline.
Qed.

Lemma connect_to_redis_connected h p d pw st b w' :
  ping (redis_Redis h p d pw) (world st) = (Val b, w') ->
  connect_to_redis h p d pw st =
  (Val (Some (redis_Redis h p d pw)),
   mk_state w' (calls st ++ [CPing])
     (stdout st ++ ["Connected to Redis at " ++ h ++ ":" ++ str_int p])).
Proof.
  intros Hping.
  unfold connect_to_redis, try_except, bind at 1, command.
  now rewrite Hping.
Qed.

(** C5.  Once connected, the [KEYS] commands of a run are, in order, the
    four default patterns when no [--pattern] flag is given, and the
    given values, in the order given, when there are some. *)
Theorem main_scans_selected_patterns (given : list string)
  (h : string) (p d : Z) (pw : option string) st b w' :
  ping (redis_Redis h p d pw) (world st) = (Val b, w') ->
  keys_calls
    (calls (snd (main (mk_Namespace h p d pw (argparse_append given)) st)))
  = (keys_calls (calls st) ++
     match given with
     | [] => ["group:*"; "groups:*"; "*:group*"; "*:groups*"]
     | _ :: _ => given
     end)%list.
Proof.
  intros Hping.
  set (args := mk_Namespace h p d pw (argparse_append given)).
  assert (Hsel : select_patterns args =
                 match given with
                 | [] => ["group:*"; "groups:*"; "*:group*"; "*:groups*"]
                 | _ :: _ => given
                 end) by now destruct given.
  rewrite <- Hsel. clear Hsel.
  unfold main, bind at 1. cbn [host port db password args].
  rewrite (connect_to_redis_connected _ _ _ _ _ Hping).
  unfold bind, query_groups.
  match goal with
  | |- context [for_fold (scan_pattern ?r) ?ps [] ?s] =>
      destruct (scan_loop r ps [] [] s)
        as (j & st' & _ & Hs & _ & _ & _ & Hk)
  end.
  rewrite Hs.
  destruct (display_group_info_offline (store (fetches j) []) st')
    as [_ Hq].
  rewrite Hq, Hk. cbn [calls]. unfold keys_calls at 1.
  rewrite flat_map_app. cbn [flat_map]. now rewrite app_nil_r.
Qed.

End Patterns.

Lemma main_scans_selected_patterns_witness :
  ping (redis_Redis (Libs := Demo.libs) "localhost" 6379 0 None) 0
  = (Val true, 1)
  /\ keys_calls
       (calls (snd (main (L := Demo.libs)
                      (mk_Namespace "localhost" 6379 0 None
                         (argparse_append [])) Demo.st0)))
     = ["group:*"; "groups:*"; "*:group*"; "*:groups*"]
  /\ keys_calls
       (calls (snd (main (L := Demo.libs)
                      (mk_Namespace "localhost" 6379 0 None
                         (argparse_append ["group:[2-3]"; "nothing"]))
                      Demo.st0)))
     = ["group:[2-3]"; "nothing"].
Proof.
  split; [reflexivity | split].
  - exact (main_scans_selected_patterns (L := Demo.libs) []
             "localhost" 6379 0 None Demo.st0 (b := true) (w' := 1) eq_refl).
  - exact (main_scans_selected_patterns (L := Demo.libs)
             ["group:[2-3]"; "nothing"]
             "localhost" 6379 0 None Demo.st0 (b := true) (w' := 1) eq_refl).
Defined.

(** ** Fetch failures *)

Section Failures.

Context {W score json : Type} {L : Libs W score json}.
Implicit Types (st : state W) (r : Redis score W).

(** When the [TYPE] command raises, the entry holds the message of the
    exception under the key "error", and nothing else. *)
Lemma get_group_info_type_raises r key st e w' :
  type r key (world st) = (Exc e, w') ->
  get_group_info r key st =
  (Val [("error", VStr (exn_str e))],
   mk_state w' (calls st ++ [CType key]) (stdout st)).
Proof.
  intros Htype. unfold get_group_info, try_except, bind at 1, command.
  now rewrite Htype.
Qed.

(** The scan never raises, whatever the server replies. *)
Lemma query_groups_total r (patterns : list string) st :
  exists groups st', query_groups r patterns st = (Val groups, st').
Proof.
  destruct (scan_loop r patterns [] [] st) as (j & st' & _ & Hs & _).
  unfold query_groups. eauto.
Qed.

(** The display pass reads [info['type']] before it looks for "error": on
    an entry that only holds "error" it raises [KeyError], after the
    heading of the entry, and what follows in the mapping is not
    printed. *)
Lemma display_group_info_error_entry key msg (rest : pydict info) st :
  display_group_info (L := L)
    ((key, [("error", VStr msg)]) :: rest) st =
  (Exc (key_error "type"),
   mk_state (world st) (calls st)
     (stdout st ++
        [nl ++ "--- Found " ++ str_int (Z.of_nat (S (length rest)))
            ++ " group-related entries ---";
         nl ++ "Key: " ++ key])).
Proof.
  unfold display_group_info. cbn [for_each length].
  lookups. steps. tidy.
Qed.


End Failures.

(** C1.  On the demo server, scanning [group:*] lists a key whose [TYPE]
    command raises and a key that holds a string.  The scan goes through
    and records both entries, the first one holding the message under
    "error"; the display pass then raises [KeyError] on that entry, and
    the entry of the second key is never printed. *)
Theorem main_error_entry_aborts_display :
  type (Demo.server true) "group:1" 2
  = (Exc (mk_exn OtherException "boom"), 3)
  /\ fst (bind (connect_to_redis (L := Demo.libs) "localhost" 6379 0 None)
            (fun _ => query_groups (Demo.server true) ["group:*"]) Demo.st0)
     = Val [("group:1", [("error", VStr "boom")]);
            ("group:2", [("type", VStr "string"); ("value", VStr "x")])]
  /\ main (L := Demo.libs) (Demo.args "localhost" ["group:*"]) Demo.st0
     = (Exc (key_error "type"),
        mk_state 5
          [CPing; CKeys "group:*"; CType "group:1"; CType "group:2";
           CGet "group:2"]
          ["Connected to Redis at localhost:6379";
           nl ++ "Searching for keys matching pattern: group:*";
           "Found 2 keys for pattern: group:*";
           nl ++ "--- Found 2 group-related entries ---";
           nl ++ "Key: group:1"]).
Proof. repeat split; vm_compute; reflexivity. Qed.


Lemma display_nothing_found_witness :
  connect_to_redis (L := Demo.libs) "localhost" 6379 0 None Demo.st0
  = (Val (Some (Demo.server true)),
     mk_state 1 [CPing] ["Connected to Redis at localhost:6379"])
  /\ query_groups (Demo.server true) ["nothing"]
       (mk_state 1 [CPing] ["Connected to Redis at localhost:6379"])
     = (Val [],
        mk_state 2 [CPing; CKeys "nothing"]
          ["Connected to Redis at localhost:6379";
           nl ++ "Searching for keys matching pattern: nothing";
           "No keys found for pattern: nothing"])
  /\ main (L := Demo.libs) (Demo.args "localhost" ["nothing"]) Demo.st0
     = (Val tt,
        mk_state 2 [CPing; CKeys "nothing"]
          ["Connected to Redis at localhost:6379";
           nl ++ "Searching for keys matching pattern: nothing";
           "No keys found for pattern: nothing";
           nl ++ "No group information found in Redis."]).
Proof.
  split; [reflexivity | split; [reflexivity |]].
  destruct (display_nothing_found (L := Demo.libs)
              (Demo.args "localhost" ["nothing"]) Demo.st0
              (r := Demo.server true)
              (st1 := mk_state 1 [CPing]
                        ["Connected to Redis at localhost:6379"])
              (st2 := mk_state 2 [CPing; CKeys "nothing"]
                        ["Connected to Redis at localhost:6379";
                         nl ++ "Searching for keys matching pattern: nothing";
                         "No keys found for pattern: nothing"])
              eq_refl eq_refl) as [Hdisplay Hmain].
  rewrite Hmain. exact Hdisplay.
Defined.


(** * Further properties of the script *)

(** ** Connecting *)

Section Connecting.

Context {W score json : Type} {L : Libs W score json}.
Implicit Types (st : state W) (r : Redis score W).

(** X1.  [connect_to_redis] never raises and sends one [PING].  It
    returns the client, after the record "Connected to Redis at
    host:port", when the ping returns; it returns [None], after the
    record of the error, when the ping raises. *)
Theorem connect_to_redis_outcome (h : string) (p d : Z)
  (pw : option string) st :
  exists res st',
    connect_to_redis h p d pw st = (Val res, st')
    /\ calls st' = (calls st ++ [CPing])%list
    /\ match res with
       | Some r =>
           r = redis_Redis h p d pw
           /\ (exists b, fst (ping r (world st)) = Val b)
           /\ stdout st'
              = (stdout st
                 ++ [("Connected to Redis at " ++ h ++ ":"
                        ++ str_int p)%string])%list
       | None =>
           exists e,
             fst (ping (redis_Redis h p d pw) (world st)) = Exc e
             /\ stdout st'
                = (stdout st
                   ++ [("Error connecting to Redis: "
                          ++ exn_str e)%string])%list
       end.
Proof.
  unfold connect_to_redis, try_except, bind at 1, command.
  destruct (ping (redis_Redis h p d pw) (world st)) as [[b|e] w] eqn:Hping.
  - eexists; eexists. split; [reflexivity |].
    cbn [calls stdout world]. rewrite Hping.
    repeat split. now exists b.
  - eexists; eexists. split; [reflexivity |].
    cbn [calls stdout world]. split; [reflexivity |].
    exists e. now split.
Qed.

End Connecting.

(** ** Fetching a key *)

Section Fetching.

Context {W score json : Type} {L : Libs W score json}.
Implicit Types (st : state W) (r : Redis score W).

(** Case analysis on the type a [TYPE] command returned. *)
Ltac by_type t :=
  repeat match goal with
    | |- context [if String.eqb t ?x then _ else _] =>
        let E := fresh "E" in
        destruct (String.eqb t x) eqn:E;
        [apply String.eqb_eq in E; subst t |]
    end.

(** What [get_group_info] returns is a typed entry whose payload goes
    with its tag, or an entry that records a failure. *)
Lemma get_group_info_shape r key st :
  exists (entry : info) st',
    get_group_info r key st = (Val entry, st')
    /\ stdout st' = stdout st
    /\ (fitting_entry entry \/ error_entry entry).
Proof.
  unfold get_group_info, try_except, bind at 1, command.
  unfold fitting_entry, error_entry.
  destruct (type r key (world st)) as [[t|e] w];
    [| unfold ret; eauto 8].
  by_type t;
  try (unfold bind; cbn [world];
       match goal with
       | |- context [match ?f key w with pair _ _ => _ end] =>
           destruct (f key w) as [[v|e] w']
       end);
  unfold ret; try solve [eauto 8];
  try solve [eexists; eexists; split; [reflexivity |]; split;
             [reflexivity |]; left; eexists; eexists; split;
             [reflexivity | try destruct v; reflexivity]].
  eexists; eexists; split; [reflexivity |]; split; [reflexivity |].
  left. eexists; eexists; split; [reflexivity |].
  unfold payload_fits. now rewrite E, E0, E1, E2, E3.
Qed.

(** X2.  [get_group_info] prints nothing.  It sends a [TYPE] command and
    then at most one command that reads the payload, both for the key it
    was given; it sends no second command when [TYPE] raises or returns a
    type other than the five the script knows. *)
Theorem get_group_info_commands r key st :
  exists (entry : info) st' reads,
    get_group_info r key st = (Val entry, st')
    /\ stdout st' = stdout st
    /\ calls st' = (calls st ++ CType key :: reads)%list
    /\ In reads [[]; [CGet key]; [CHGetAll key]; [CLRange key];
                 [CSMembers key]; [CZRange key]]
    /\ match type r key (world st) with
       | (Val t, _) =>
           if existsb (String.eqb t)
                ["string"; "hash"; "list"; "set"; "zset"]
           then True else reads = []
       | (Exc _, _) => reads = []
       end.
Proof.
  unfold get_group_info, try_except, bind at 1, command.
  destruct (type r key (world st)) as [[t|e] w].
  - cbn [existsb].
    by_type t; cbn [orb String.eqb Ascii.eqb Bool.eqb];
    try (unfold bind; cbn [world];
         match goal with
         | |- context [match ?f key w with pair _ _ => _ end] =>
             destruct (f key w) as [[v|e] w']
         end);
    unfold ret; cbn [calls stdout];
    try solve [eexists; eexists; eexists; split; [reflexivity |];
               split; [reflexivity |]; rewrite <- app_assoc;
               split; [reflexivity |]; split; [simpl; tauto | exact I]].
    exists [("type", VStr t); ("value", VStr "Unknown type")].
    eexists; exists []. repeat split. simpl; tauto.
  - unfold ret. cbn [calls stdout].
    eexists; eexists; exists []. repeat split. simpl; tauto.
Qed.

End Fetching.

(** ** The mapping a scan builds *)

Section DictOrder.

Variable V : Type.
Implicit Types (d : pydict V) (k : string) (v : V).

Lemma dict_set_Forall (P : V -> Prop) k v d :
  P v -> Forall (fun kv => P (snd kv)) d ->
  Forall (fun kv => P (snd kv)) (dict_set k v d).
Proof.
  intros Hv Hd. induction Hd as [|[k' v'] d Hkv Hd IH]; simpl.
  - auto.
  - destruct (String.eqb k k'); constructor; auto.
Qed.

(** Assigning to a new key appends it; assigning to a key that is there
    keeps the order of the keys. *)
Lemma dict_keys_set_order k v d :
  dict_keys (dict_set k v d) =
  if existsb (String.eqb k) (dict_keys d) then dict_keys d
  else (dict_keys d ++ [k])%list.
Proof.
  unfold dict_keys. induction d as [|[k' v'] d IH]; simpl.
  - reflexivity.
  - destruct (String.eqb k k') eqn:E; simpl.
    + reflexivity.
    + rewrite IH. now destruct (existsb (String.eqb k) (map fst d)).
Qed.

Lemma dict_keys_store (log : list (string * V)) d :
  dict_keys (store log d) = first_seen (dict_keys d) (map fst log).
Proof.
  revert d. induction log as [|[k v] log IH]; intros d; simpl.
  - reflexivity.
  - now rewrite IH, dict_keys_set_order.
Qed.

Lemma first_seen_In (seen l : list string) k :
  In k (first_seen seen l) <-> In k seen \/ In k l.
Proof.
  revert seen. induction l as [|x l IH]; intros seen; simpl.
  - tauto.
  - rewrite IH. destruct (existsb (String.eqb x) seen) eqn:E.
    + apply existsb_exists in E. destruct E as (y & Hy & Heq).
      apply String.eqb_eq in Heq. subst y. intuition (subst; auto).
    + rewrite in_app_iff. simpl. tauto.
Qed.

End DictOrder.

Section Built.

Context {W score json : Type} {L : Libs W score json}.
Implicit Types (st : state W) (r : Redis score W).

(** The scan keeps a property that the entries of the mapping have and
    that every fetched entry has. *)
Section Invariant.

Variable P : info (score := score) -> Prop.
Variable r : Redis score W.
Hypothesis fetched_entries :
  forall key st,
    exists i st', get_group_info r key st = (Val i, st') /\ P i.

Lemma fetch_keys_entries (keys : list string) :
  forall (all_groups : pydict info) st,
    Forall (fun kv => P (snd kv)) all_groups ->
    exists groups st',
      for_fold (fetch_key r) keys all_groups st = (Val groups, st')
      /\ Forall (fun kv => P (snd kv)) groups.
Proof.
  induction keys as [|key keys IH]; intros all_groups st Hall.
  - exists all_groups, st. now split.
  - destruct (fetched_entries key st) as (i & st1 & Hi & HP).
    destruct (IH (dict_set key i all_groups) st1)
      as (groups & st' & Hrun & Hall').
    { now apply dict_set_Forall. }
    exists groups, st'. cbn [for_fold]. unfold fetch_key at 1.
    rewrite run_bind_bind. unfold bind at 1. rewrite Hi, run_bind_ret.
    now split.
Qed.

Lemma scan_pattern_entries pattern (all_groups : pydict info) st :
  Forall (fun kv => P (snd kv)) all_groups ->
  exists groups st',
    scan_pattern r all_groups pattern st = (Val groups, st')
    /\ Forall (fun kv => P (snd kv)) groups.
Proof.
  intros Hall. unfold scan_pattern. rewrite run_bind_print.
  match goal with
  | |- context [bind (get_all_keys r pattern) _ ?s] =>
      destruct (get_all_keys_total r pattern s) as (ks & st1 & Hks & _)
  end.
  unfold bind at 1. rewrite Hks. destruct ks as [|k ks].
  - rewrite run_bind_print. unfold ret. eauto.
  - rewrite run_bind_print.
    match goal with
    | |- context [for_fold (fetch_key r) ?l _ ?s] =>
        destruct (fetch_keys_entries l s Hall)
          as (groups & st2 & Hrun & Hall')
    end.
    eauto.
Qed.

Lemma scan_entries (patterns : list string) :
  forall (all_groups : pydict info) st,
    Forall (fun kv => P (snd kv)) all_groups ->
    exists groups st',
      for_fold (scan_pattern r) patterns all_groups st = (Val groups, st')
      /\ Forall (fun kv => P (snd kv)) groups.
Proof.
  induction patterns as [|pattern patterns IH]; intros all_groups st Hall.
  - exists all_groups, st. now split.
  - destruct (scan_pattern_entries pattern st Hall)
      as (groups1 & st1 & Hrun & Hall1).
    cbn [for_fold]. unfold bind at 1. rewrite Hrun. now apply IH.
Qed.

End Invariant.

Lemma get_group_info_fits r key st :
  exists (i : info) st',
    get_group_info r key st = (Val i, st')
    /\ (fitting_entry i \/ error_entry i).
Proof.
  destruct (get_group_info_shape r key st) as (i & st' & Hi & _ & Hshape).
  eauto.
Qed.

(** X3.  The scan never raises, and every entry of the mapping it
    returns is of one of two forms: a type tag with a payload that goes
    with the tag, or the record of a failure. *)
Theorem query_groups_entries r (patterns : list string) st :
  exists groups st',
    query_groups r patterns st = (Val groups, st')
    /\ Forall (fun kv => fitting_entry (snd kv) \/ error_entry (snd kv))
         groups.
Proof.
  unfold query_groups.
  apply scan_entries
    with (P := fun i => fitting_entry i \/ error_entry i).
  - apply get_group_info_fits.
  - constructor.
Qed.

(** X4.  The keys of the mapping are the keys that were fetched, each
    once, in the order in which they were first fetched; this is the
    order in which the display pass goes through them. *)
Theorem query_groups_key_order r (patterns : list string) st :
  exists groups j st',
    query_groups r patterns st = (Val groups, st')
    /\ journal r patterns st = (Val j, st')
    /\ dict_keys groups = first_seen [] (map fst (fetches j))
    /\ forall key,
         In key (dict_keys groups) <-> In key (map fst (fetches j)).
Proof.
  destruct (scan_loop r patterns [] [] st)
    as (j & st' & Hj & Hs & _).
  exists (store (fetches j) []), j, st'.
  unfold query_groups, journal. repeat split; auto.
  - apply dict_keys_store.
  - rewrite dict_keys_store, first_seen_In. simpl. tauto.
  - rewrite dict_keys_store, first_seen_In. simpl. tauto.
Qed.



End Built.


(** ** Rendering the other payloads *)

Section Rendering.

Context {W score json : Type} {L : Libs W score json}.
Implicit Types (st : state W) (r : Redis score W).

(** X6.  For an entry whose payload is a list or a set the renderer
    prints, between the heading of the entry and the closing rule, the
    record "Value:" and one record "  - item" per element, in the order
    of the payload. *)
Theorem display_sequence_entry key t (items : list string) st :
  let out :=
    (stdout st
       ++ [(nl ++ "Key: " ++ key)%string; ("Type: " ++ t)%string; "Value:"]
       ++ map (fun item => ("  - " ++ item)%string) items
       ++ [str_repeat "-" 40])%list in
  display_entry (L := L) (key, [("type", VStr t); ("value", VList items)]) st
  = (Val tt, mk_state (world st) (calls st) out)
  /\ display_entry (L := L)
       (key, [("type", VStr t); ("value", VSet items)]) st
     = (Val tt, mk_state (world st) (calls st) out).
Proof.
  split; lookups; steps; tidy.
Qed.

(** X7.  For a sorted set the records of the elements are "  - " followed
    by the [str] of the pair: the [repr] of the member and the [repr] of
    the score, between parentheses. *)
Theorem display_sorted_set_entry key (items : list (string * score)) st :
  display_entry (L := L)
    (key, [("type", VStr "zset"); ("value", VPairs items)]) st
  = (Val tt,
     mk_state (world st) (calls st)
       (stdout st
          ++ [nl ++ "Key: " ++ key; "Type: zset"; "Value:"]
          ++ map (fun item =>
                    "  - (" ++ repr_str (fst item) ++ ", "
                      ++ repr_float (snd item) ++ ")") items
          ++ [str_repeat "-" 40])).
Proof.
  lookups. steps. tidy.
Qed.

(** X8.  A string key that is gone when [GET] is sent (the command
    returns [None]) is still recorded, under the tag "string", and is
    rendered with the value "None". *)
Theorem display_vanished_string r key st w1 w2 :
  type r key (world st) = (Val "string", w1) ->
  get r key w1 = (Val None, w2) ->
  bind (get_group_info r key) (fun i => display_entry (L := L) (key, i)) st
  = (Val tt,
     mk_state w2 (calls st ++ [CType key; CGet key])
       (stdout st
          ++ [nl ++ "Key: " ++ key; "Type: string"; "  Value: None";
              str_repeat "-" 40])).
Proof.
  intros Htype Hget.
  assert (Hinfo : get_group_info r key st =
    (Val [("type", VStr "string"); ("value", VNone)],
     mk_state w2 (calls st ++ [CType key; CGet key]) (stdout st))).
  { unfold get_group_info, try_except, bind, command.
    rewrite Htype. cbn [String.eqb Ascii.eqb Bool.eqb world calls stdout].
    rewrite Hget. unfold ret, of_optional. now rewrite <- app_assoc. }
  unfold bind at 1. rewrite Hinfo.
  lookups. steps. tidy.
Qed.

(** X9.  A key whose type is none of the five the script knows costs one
    [TYPE] command and is rendered with the name of its type and the value
    "Unknown type"; its payload is never read. *)
Theorem display_unknown_type r key t st w1 :
  type r key (world st) = (Val t, w1) ->
  existsb (String.eqb t) ["string"; "hash"; "list"; "set"; "zset"] = false ->
  bind (get_group_info r key) (fun i => display_entry (L := L) (key, i)) st
  = (Val tt,
     mk_state w1 (calls st ++ [CType key])
       (stdout st
          ++ [nl ++ "Key: " ++ key; "Type: " ++ t; "  Value: Unknown type";
              str_repeat "-" 40])).
Proof.
  intros Htype Hother. cbn [existsb] in Hother.
  repeat (apply orb_false_iff in Hother;
          let H := fresh "H" in destruct Hother as [H Hother]).
  assert (Hinfo : get_group_info r key st =
    (Val [("type", VStr t); ("value", VStr "Unknown type")],
     mk_state w1 (calls st ++ [CType key]) (stdout st))).
  { unfold get_group_info, try_except, bind, command.
    rewrite Htype. now rewrite H, H0, H1, H2, H3. }
  unfold bind at 1. rewrite Hinfo.
  lookups. steps.
  change (startswith "Unknown type" "{" || startswith "Unknown type" "[")
    with false.
  steps. tidy.
Qed.

(** X10.  Only [JSONDecodeError] is caught around [json.loads]: when it
    raises anything else on a payload that starts with a brace or a
    bracket, the exception leaves the display pass after the heading of
    the entry; neither the payload nor the closing rule is printed. *)
Theorem display_entry_parser_failure key (s : string) e st :
  startswith s "{" || startswith s "[" = true ->
  json_loads s = Exc e ->
  is_JSONDecodeError e = false ->
  display_entry (key, [("type", VStr "string"); ("value", VStr s)]) st
  = (Exc e,
     mk_state (world st) (calls st ++ [CJsonLoads s])
       (stdout st ++ [nl ++ "Key: " ++ key; "Type: string"])).
Proof.
  intros Hlooks He Hcls. lookups. steps. rewrite Hlooks.
  unfold try_except, bind at 1. rewrite run_bind_library, He, Hcls.
  steps. tidy.
Qed.

End Rendering.

Lemma display_vanished_string_witness :
  type Edge.server "gone" 0 = (Val "string", 1)
  /\ get Edge.server "gone" 1 = (Val None, 2)
  /\ bind (get_group_info Edge.server "gone")
       (fun i => display_entry (L := Edge.libs) ("gone", i)) Demo.st0
     = (Val tt,
        mk_state 2 [CType "gone"; CGet "gone"]
          [nl ++ "Key: gone"; "Type: string"; "  Value: None";
           str_repeat "-" 40]).
Proof.
  split; [reflexivity | split; [reflexivity |]].
  exact (display_vanished_string (L := Edge.libs) Edge.server "gone"
           Demo.st0 (w1 := 1) (w2 := 2) eq_refl eq_refl).
Defined.

Lemma display_unknown_type_witness :
  type (Demo.server true) "group:4" 0 = (Val "stream", 1)
  /\ existsb (String.eqb "stream") ["string"; "hash"; "list"; "set"; "zset"]
     = false
  /\ bind (get_group_info (Demo.server true) "group:4")
       (fun i => display_entry (L := Demo.libs) ("group:4", i)) Demo.st0
     = (Val tt,
        mk_state 1 [CType "group:4"]
          [nl ++ "Key: group:4"; "Type: stream"; "  Value: Unknown type";
           str_repeat "-" 40]).
Proof.
  split; [reflexivity | split; [reflexivity |]].
  exact (display_unknown_type (L := Demo.libs) (Demo.server true) "group:4"
           Demo.st0 (w1 := 1) eq_refl eq_refl).
Defined.

Lemma display_entry_parser_failure_witness :
  startswith "[[[[" "{" || startswith "[[[[" "[" = true
  /\ json_loads (Libs := Edge.libs) "[[[["
     = Exc (mk_exn OtherException "maximum recursion depth exceeded")
  /\ display_entry (L := Edge.libs)
       ("deep", [("type", VStr "string"); ("value", VStr "[[[[")]) Demo.st0
     = (Exc (mk_exn OtherException "maximum recursion depth exceeded"),
        mk_state 0 [CJsonLoads "[[[["] [nl ++ "Key: deep"; "Type: string"]).
Proof.
  split; [reflexivity | split; [reflexivity |]].
  exact (display_entry_parser_failure (L := Edge.libs) "deep" "[[[["
           Demo.st0 eq_refl eq_refl eq_refl).
Defined.

(** ** When the display pass completes *)

Section Completion.

Context {W score json : Type} {L : Libs W score json}.
Implicit Types (st : state W) (r : Redis score W).











End Completion.



(** ** A run that completes *)

Section Run.

Context {W score json : Type} {L : Libs W score json}.
Implicit Types (st : state W) (r : Redis score W).



End Run.


(** ** What the display pass leaves alone *)

Section JsonOnly.

Context {W : Type}.

Lemma json_only_ret {A} (a : A) : json_only (W := W) (ret a).
Proof. intros st. split; [reflexivity |]. exists []. now rewrite app_nil_r. Qed.

Lemma json_only_raise {A} e : json_only (W := W) (raise (A := A) e).
Proof. intros st. split; [reflexivity |]. exists []. now rewrite app_nil_r. Qed.

Lemma json_only_print s : json_only (W := W) (print s).
Proof. intros st. split; [reflexivity |]. exists []. now rewrite app_nil_r. Qed.

Lemma json_only_loads {A} text (x : result A) :
  json_only (W := W) (library (CJsonLoads text) x).
Proof. intros st. split; [reflexivity |]. now exists [text]. Qed.

Lemma json_only_bind {A B} (m : M (W := W) A) (f : A -> M B) :
  json_only m -> (forall a, json_only (f a)) -> json_only (bind m f).
Proof.
  intros Hm Hf st. unfold bind.
  destruct (Hm st) as [Hw (texts & Hc)].
  destruct (m st) as [[a|e] st1]; cbn [snd] in *.
  - destruct (Hf a st1) as [Hw' (texts' & Hc')]. split; [congruence |].
    exists (texts ++ texts')%list.
    now rewrite Hc', Hc, map_app, app_assoc.
  - split; [assumption | now exists texts].
Qed.

Lemma json_only_try_except {A} (m : M (W := W) A) (h : exn -> M A) :
  json_only m -> (forall e, json_only (h e)) -> json_only (try_except m h).
Proof.
  intros Hm Hh st. unfold try_except.
  destruct (Hm st) as [Hw (texts & Hc)].
  destruct (m st) as [[a|e] st1]; cbn [snd] in *.
  - split; [assumption | now exists texts].
  - destruct (Hh e st1) as [Hw' (texts' & Hc')]. split; [congruence |].
    exists (texts ++ texts')%list.
    now rewrite Hc', Hc, map_app, app_assoc.
Qed.

Lemma json_only_for_each {A} (body : A -> M (W := W) unit) (l : list A) :
  (forall x, json_only (body x)) -> json_only (for_each body l).
Proof.
  intros Hbody. induction l as [|x l IH]; cbn [for_each].
  - apply json_only_ret.
  - apply json_only_bind; auto.
Qed.

Lemma json_only_getitem {V} k (d : pydict V) :
  json_only (W := W) (getitem k d).
Proof.
  unfold getitem. destruct (dict_get k d).
  - apply json_only_ret.
  - apply json_only_raise.
Qed.

End JsonOnly.

Create HintDb json_only.
#[export] Hint Resolve json_only_ret json_only_raise json_only_print
  json_only_loads json_only_getitem : json_only.

Section DisplayLocal.

Context {W score json : Type} {L : Libs W score json}.
Implicit Types (st : state W).

Ltac json_only_steps :=
  repeat first
    [ apply json_only_bind; [| intros ?]
    | apply json_only_try_except; [| intros ?]
    | apply json_only_for_each; intros ?
    | solve [auto with json_only] ].

Lemma display_value_json_only (value : pyvalue score) :
  json_only (W := W) (display_value value).
Proof.
  destruct value as [|s|d|l|l|l]; cbn [display_value]; json_only_steps.
  destruct (startswith s "{" || startswith s "["); json_only_steps.
  match goal with
  | |- context [is_JSONDecodeError ?e] => destruct (is_JSONDecodeError e)
  end; auto with json_only.
Qed.

(** X14.  The display pass never talks to the server: whatever the
    mapping and however the pass ends, the world is as it was and the
    only library calls made are calls of [json.loads]. *)
Theorem display_group_info_json_only (groups : pydict info) st :
  world (snd (display_group_info (L := L) groups st)) = world st
  /\ exists texts,
       calls (snd (display_group_info (L := L) groups st))
       = (calls st ++ map CJsonLoads texts)%list.
Proof.
  revert st. change (json_only (display_group_info (L := L) groups)).
  destruct groups as [|g groups]; [apply json_only_print |].
  unfold display_group_info.
  apply json_only_bind; [apply json_only_print | intros _].
  apply json_only_for_each. intros [key i].
  unfold display_entry. json_only_steps.
  destruct (dict_mem "error" i); json_only_steps.
  apply display_value_json_only.
Qed.

End DisplayLocal.
